(** * Beamforming evaluation: the [BeamformingEvaluation] class of
      [beam_eval/evaluation.py], embedded in Rocq.

    The class receives pandas objects and decomposes an estimated signal
    into target, interference, noise and artifact parts through the static
    helper [_projection].  The embedding has these layers:

    - the pandas objects the class touches ([Series], [DataFrame]) and the
      operations it calls on them (subscripting, [to_frame], [pd.concat],
      arithmetic, truth value), over the default positional index and flat
      column labels;
    - Python values and exceptions (exceptions are named by their class);
    - the class itself: the initializer, the four properties and the static
      helper, in a state-and-exception monad over the instance, with the
      arguments of the types the signature annotates;
    - numpy arrays and the class once more on them ([Dynamic]): Python
      checks no annotation, and an array as interference is what lets the
      initializer complete.

    Samples are exact rationals or a missing value ([NaN]); rounding of
    binary floating point is outside the model. *)

From Stdlib Require Import List ZArith QArith Bool String Lia.
Import ListNotations.
Local Open Scope string_scope.
Local Open Scope Z_scope.

(** ** Pandas objects *)

Module Pandas.

(** A cell of a numeric column: a value, or the missing value pandas writes
    when alignment finds no partner. *)
Inductive cell : Type :=
| NaN
| Val (q : Q).

(** Column labels and series names. *)
Inductive label : Type :=
| LInt (z : Z)
| LStr (s : string).

Definition label_eqb (a b : label) : bool :=
  match a, b with
  | LInt x, LInt y => Z.eqb x y
  | LStr x, LStr y => String.eqb x y
  | _, _ => false
  end.

Record Series : Type := mkSeries {
  name : option label;
  values : list cell
}.

(** A frame over the positional index [0 .. nrows-1]; every column of a
    well-formed frame has [nrows] cells. *)
Record DataFrame : Type := mkFrame {
  nrows : nat;
  columns : list (label * list cell)
}.

Inductive pdobj : Type :=
| PSeries (s : Series)
| PFrame (f : DataFrame).

(** [pd.DataFrame()] *)
Definition empty_frame : DataFrame := mkFrame 0 [].

(** Subscripts as Python builds them: [a[k]] passes one item, a label or
    [slice(start, stop)]; [a[i, j]] passes the tuple of its items, so
    [a[:n, :]] passes the tuple of two slices. *)
Inductive item : Type :=
| ILabel (l : label)
| ISlice (start stop : option Z).

Inductive key : Type :=
| KItem (i : item)
| KTuple (items : list item).

Definition is_slice (i : item) : bool :=
  match i with ISlice _ _ => true | ILabel _ => false end.

(** Python's normalisation of one slice bound against a length. *)
Definition slice_bound (len i : Z) : Z :=
  if i <? 0 then Z.max 0 (i + len) else Z.min i len.

Definition py_slice {A : Type} (start stop : option Z) (l : list A) : list A :=
  let len := Z.of_nat (List.length l) in
  let lo := match start with None => 0 | Some i => slice_bound len i end in
  let hi := match stop with None => len | Some i => slice_bound len i end in
  firstn (Z.to_nat (hi - lo)) (skipn (Z.to_nat lo) l).

(** [len(series)] *)
Definition len (s : Series) : nat := List.length (values s).

(** [series[start:stop]]: positional, never raises. *)
Definition Series_slice (s : Series) (start stop : option Z) : Series :=
  mkSeries (name s) (py_slice start stop (values s)).

(** [series.to_frame()]: one column, labelled by the name, or by 0. *)
Definition to_frame (s : Series) : DataFrame :=
  mkFrame (len s)
          [(match name s with Some l => l | None => LInt 0 end, values s)].

Definition DataFrame_slice (f : DataFrame) (start stop : option Z) : DataFrame :=
  mkFrame (List.length (py_slice start stop (repeat tt (nrows f))))
          (map (fun c => (fst c, py_slice start stop (snd c))) (columns f)).

Definition select (l : label) (f : DataFrame) : list (label * list cell) :=
  filter (fun c => label_eqb (fst c) l) (columns f).

(** The exception a labelled column index raises for a key that cannot be a
    label. *)
Definition invalid_key : string := "InvalidIndexError".

(** The labels [k], [k+1], ... of [n] columns numbered in order. *)
Fixpoint range_labels (k : Z) (n : nat) : list label :=
  match n with
  | O => []
  | S m => LInt k :: range_labels (k + 1) m
  end.

Fixpoint labels_eqb (a b : list label) : bool :=
  match a, b with
  | [], [] => true
  | x :: a', y :: b' => label_eqb x y && labels_eqb a' b'
  | _, _ => false
  end.

(** Columns numbered 0, 1, ... in order stand for the default column index
    (a [RangeIndex]): the one of [pd.DataFrame()], of [to_frame] on an
    unnamed series, of a frame built from an array. *)
Definition default_columns (f : DataFrame) : bool :=
  labels_eqb (map fst (columns f)) (range_labels 0 (List.length (columns f))).

(** The exception for a tuple key that holds a slice: the default column
    index answers [KeyError], a labelled one [InvalidIndexError]. *)
Definition refused_key (f : DataFrame) : string :=
  if default_columns f then "KeyError" else invalid_key.

(** [frame[key]] on a frame with flat column labels.  A slice selects rows;
    a label selects the column of that name (a frame when the label is
    repeated).  A tuple is taken as one column label: no flat column is
    labelled by a tuple, and a tuple that holds a slice is refused as an
    index key altogether. *)
Definition DataFrame_getitem (f : DataFrame) (k : key) : string + pdobj :=
  match k with
  | KItem (ISlice start stop) => inr (PFrame (DataFrame_slice f start stop))
  | KItem (ILabel l) =>
      match select l f with
      | [] => inl "KeyError"
      | [c] => inr (PSeries (mkSeries (Some l) (snd c)))
      | cs => inr (PFrame (mkFrame (nrows f) cs))
      end
  | KTuple items =>
      if existsb is_slice items then inl (refused_key f) else inl "KeyError"
  end.

(** Padding of a column with missing values up to [n] rows. *)
Definition pad (n : nat) (c : list cell) : list cell :=
  c ++ repeat NaN (n - List.length c).

(** The columns a member of a [pd.concat(..., axis=1)] contributes.  A frame
    gives its columns; a series gives one column labelled by its name, an
    unnamed one by the count [k] of unnamed series before it. *)
Fixpoint concat_columns (k : Z) (objs : list pdobj) : list (label * list cell) :=
  match objs with
  | [] => []
  | PFrame f :: rest => columns f ++ concat_columns k rest
  | PSeries s :: rest =>
      match name s with
      | Some l => (l, values s) :: concat_columns k rest
      | None => (LInt k, values s) :: concat_columns (k + 1) rest
      end
  end.

Definition rows_of (o : pdobj) : nat :=
  match o with PSeries s => len s | PFrame f => nrows f end.

(** [pd.concat(objs, axis=1)]: the members side by side over the union of
    their positional indexes, missing cells filled with [NaN]. *)
Definition concat (objs : list pdobj) : string + DataFrame :=
  match objs with
  | [] => inl "ValueError"
  | _ =>
      let n := fold_right Nat.max 0%nat (map rows_of objs) in
      inr (mkFrame n (map (fun c => (fst c, pad n (snd c))) (concat_columns 0 objs)))
  end.

(** Cell arithmetic: a missing operand gives a missing result. *)
Definition cell_op (op : Q -> Q -> Q) (a b : cell) : cell :=
  match a, b with
  | Val x, Val y => Val (op x y)
  | _, _ => NaN
  end.

(** [series op scalar] and [scalar op series], cell by cell. *)
Definition Series_op_scalar (op : Q -> Q -> Q) (s : Series) (z : Z) : Series :=
  mkSeries (name s) (map (fun c => cell_op op c (Val (inject_Z z))) (values s)).

Definition scalar_op_Series (op : Q -> Q -> Q) (z : Z) (s : Series) : Series :=
  mkSeries (name s) (map (fun c => cell_op op (Val (inject_Z z)) c) (values s)).

Definition option_label_eqb (a b : option label) : bool :=
  match a, b with
  | None, None => true
  | Some x, Some y => label_eqb x y
  | _, _ => false
  end.

(** [series op series]: both sides aligned on the union of their indexes;
    the name survives when both sides carry the same one. *)
Definition Series_op_Series (op : Q -> Q -> Q) (a b : Series) : Series :=
  let n := Nat.max (len a) (len b) in
  mkSeries (if option_label_eqb (name a) (name b) then name a else None)
           (map (fun p => cell_op op (fst p) (snd p))
                (combine (pad n (values a)) (pad n (values b)))).

(** [==] on cells: a missing value equals nothing, itself included. *)
Definition cell_eqb (a b : cell) : bool :=
  match a, b with
  | Val x, Val y => Qeq_bool x y
  | _, _ => false
  end.

Definition is_number (c : cell) : bool :=
  match c with Val _ => true | NaN => false end.

(** [a == b] on two series: refused unless both carry the same index. *)
Definition Series_eq (a b : Series) : string + list bool :=
  if Nat.eqb (len a) (len b)
  then inr (map (fun p => cell_eqb (fst p) (snd p)) (combine (values a) (values b)))
  else inl "ValueError".

End Pandas.

(** ** Python values and exceptions *)

Module Py.
Import Pandas.

(** An exception is named by its class. *)
Definition exn : Type := string.

(** The values the properties of the class compute and cache. *)
Inductive pyval : Type :=
| VNone
| VInt (z : Z)
| VSeries (s : Series).

(** [bool(v)], as [not v] and [if v] ask for it.  A series has no truth
    value: pandas raises [ValueError] for every series. *)
Definition truth (v : pyval) : exn + bool :=
  match v with
  | VNone => inr false
  | VInt z => inr (negb (Z.eqb z 0))
  | VSeries _ => inl "ValueError"
  end.

Definition binop (opz : Z -> Z -> Z) (opq : Q -> Q -> Q) (a b : pyval) : exn + pyval :=
  match a, b with
  | VInt x, VInt y => inr (VInt (opz x y))
  | VSeries s, VInt y => inr (VSeries (Series_op_scalar opq s y))
  | VInt x, VSeries s => inr (VSeries (scalar_op_Series opq x s))
  | VSeries s, VSeries t => inr (VSeries (Series_op_Series opq s t))
  | _, _ => inl "TypeError"
  end.

(** [a + b] and [a - b] *)
Definition add : pyval -> pyval -> exn + pyval := binop Z.add Qplus.
Definition sub : pyval -> pyval -> exn + pyval := binop Z.sub Qminus.

(** What the [noise] parameter can hold: a series the caller passes, or the
    default of the signature, which is the class object [pd.Series]. *)
Inductive noise_arg : Type :=
| NoiseSeries (s : Series)
| NoiseDefault.

(** [noise[start:stop]]: a class object is not subscriptable. *)
Definition noise_getitem (n : noise_arg) (start stop : option Z) : exn + Series :=
  match n with
  | NoiseSeries s => inr (Series_slice s start stop)
  | NoiseDefault => inl "TypeError"
  end.

(** Sequencing of steps that may raise. *)
Definition try {A B : Type} (r : exn + A) (k : A -> exn + B) : exn + B :=
  match r with
  | inl e => inl e
  | inr a => k a
  end.

End Py.

Declare Scope py_scope.
Delimit Scope py_scope with py.
Notation "'try!' x <- r ; k" := (Py.try r (fun x => k))
  (at level 10, x name, r at level 100, k at level 200) : py_scope.

(** ** The class *)

Module BeamformingEvaluation.
Import Pandas Py.
Local Open Scope py_scope.

(** The attributes [__init__] assigns.  The four caches start as [None]. *)
Record instance : Type := mkInstance {
  _e_artif : pyval;
  _e_noise : pyval;
  _e_interf : pyval;
  _s_target : pyval;
  max_len : nat;
  input_signal : DataFrame;
  estimated : Series;
  interference : pdobj;
  noise : DataFrame
}.

(** [_projection(signal, subspace)]: the body is [return 0]. *)
Definition _projection (signal subspace : pdobj) : pyval := VInt 0.

(** The instance as the assignments of [__init__] leave it: empty caches,
    [max_len] the length of the estimated signal. *)
Definition fresh (input_signal : DataFrame) (estimated : Series)
    (interference : pdobj) (noise : DataFrame) : instance :=
  mkInstance VNone VNone VNone VNone (len estimated) input_signal estimated
             interference noise.

(** [__init__], statement by statement.  The four caches and [self.noise]
    are first set to [None]; the attributes computed from the arguments
    follow in the order of the source, and the first statement that raises
    ends the call. *)
Definition init (estimated_source real_source : Series)
    (interference_arg : DataFrame) (noise_arg : noise_arg) : exn + instance :=
  let max_len := len estimated_source in
  let stop := Some (Z.of_nat max_len) in
  (* self.input_signal = real_source[:self.max_len].to_frame() *)
  let input_signal := to_frame (Series_slice real_source None stop) in
  (* self.estimated = estimated_source *)
  let estimated := estimated_source in
  (* self.interference = interference[:self.max_len, :] *)
  try! interference <-
    DataFrame_getitem interference_arg (KTuple [ISlice None stop; ISlice None None]);
  (* self.noise = noise[:self.max_len].to_frame() *)
  try! noise_head <- noise_getitem noise_arg None stop;
  let noise := to_frame noise_head in
  inr (fresh input_signal estimated interference noise).

(** *** Running the properties

    A property reads and writes the caches of the instance.  The state pairs
    the instance with a count of the calls of [_projection] made so far; the
    count is instrumentation, no attribute of the class.  An exception leaves
    the state as it was when it was raised. *)
Record world : Type := mkWorld {
  self : instance;
  projection_calls : nat
}.

Inductive outcome (A : Type) : Type :=
| Ret (a : A) (w : world)
| Raise (e : exn) (w : world).
Arguments Ret {A} a w.
Arguments Raise {A} e w.

Definition M (A : Type) : Type := world -> outcome A.

Definition ret {A : Type} (a : A) : M A := fun w => Ret a w.

Definition bind {A B : Type} (m : M A) (k : A -> M B) : M B :=
  fun w => match m w with
           | Ret a w' => k a w'
           | Raise e w' => Raise e w'
           end.

Definition lift {A : Type} (r : exn + A) : M A :=
  fun w => match r with
           | inr a => Ret a w
           | inl e => Raise e w
           end.

Definition read {A : Type} (field : instance -> A) : M A :=
  fun w => Ret (field (self w)) w.

Definition write (update : instance -> instance) : M unit :=
  fun w => Ret tt (mkWorld (update (self w)) (projection_calls w)).

Definition final {A : Type} (o : outcome A) : world :=
  match o with
  | Ret _ w => w
  | Raise _ w => w
  end.

Notation "x <- m ;; k" := (bind m (fun x => k))
  (at level 61, m at next level, right associativity).
Notation "m ;; k" := (bind m (fun _ => k))
  (at level 61, right associativity).

(** A call of the static helper, counted. *)
Definition call_projection (signal subspace : pdobj) : M pyval :=
  fun w => Ret (_projection signal subspace)
               (mkWorld (self w) (S (projection_calls w))).

(** Assignments to the four caches. *)
Definition set_s_target (v : pyval) (i : instance) : instance :=
  mkInstance (_e_artif i) (_e_noise i) (_e_interf i) v (max_len i)
             (input_signal i) (estimated i) (interference i) (noise i).

Definition set_e_interf (v : pyval) (i : instance) : instance :=
  mkInstance (_e_artif i) (_e_noise i) v (_s_target i) (max_len i)
             (input_signal i) (estimated i) (interference i) (noise i).

Definition set_e_noise (v : pyval) (i : instance) : instance :=
  mkInstance (_e_artif i) v (_e_interf i) (_s_target i) (max_len i)
             (input_signal i) (estimated i) (interference i) (noise i).

Definition set_e_artif (v : pyval) (i : instance) : instance :=
  mkInstance v (_e_noise i) (_e_interf i) (_s_target i) (max_len i)
             (input_signal i) (estimated i) (interference i) (noise i).

(** [if not cached: <compute and store>] *)
Definition unless (cached : pyval) (compute : M unit) : M unit :=
  t <- lift (truth cached) ;;
  if negb t then compute else ret tt.

(** The property [s_target]. *)
Definition s_target : M pyval :=
  cached <- read _s_target ;;
  unless cached
    (signal <- read estimated ;;
     subspace <- read input_signal ;;
     v <- call_projection (PSeries signal) (PFrame subspace) ;;
     write (set_s_target v)) ;;
  read _s_target.

(** The property [e_interf]. *)
Definition e_interf : M pyval :=
  cached <- read _e_interf ;;
  unless cached
    (a <- read input_signal ;;
     b <- read interference ;;
     all_inputs <- lift (concat [PFrame a; b]) ;;
     signal <- read input_signal ;;
     p <- call_projection (PFrame signal) (PFrame all_inputs) ;;
     t <- s_target ;;
     v <- lift (sub p t) ;;
     write (set_e_interf v)) ;;
  read _e_interf.

(** The property [e_noise]. *)
Definition e_noise : M pyval :=
  cached <- read _e_noise ;;
  unless cached
    (a <- read input_signal ;;
     b <- read interference ;;
     c <- read noise ;;
     noised_inputs <- lift (concat [PFrame a; b; PFrame c]) ;;
     signal <- read input_signal ;;
     noise_projection <- call_projection (PFrame signal) (PFrame noised_inputs) ;;
     i <- e_interf ;;
     t <- s_target ;;
     it <- lift (add i t) ;;
     v <- lift (sub noise_projection it) ;;
     write (set_e_noise v)) ;;
  read _e_noise.

(** The property [e_artif]. *)
Definition e_artif : M pyval :=
  cached <- read _e_artif ;;
  unless cached
    (est <- read estimated ;;
     n <- e_noise ;;
     i <- e_interf ;;
     ni <- lift (add n i) ;;
     t <- s_target ;;
     nit <- lift (add ni t) ;;
     v <- lift (sub (VSeries est) nit) ;;
     write (set_e_artif v)) ;;
  read _e_artif.

(** *** Attribute lookup

    [instance.name] looks the name up on the class first: a property found
    there is run.  Otherwise the attributes of the instance are searched,
    then the remaining members of the class and of [object]; a name found
    nowhere raises [AttributeError]. *)
Inductive attribute : Type :=
| AValue (v : pyval)
| AObject (o : pdobj)
| ALength (n : nat)
| AMember (name : string).

Definition properties : list (string * M pyval) :=
  [("s_target", s_target); ("e_interf", e_interf);
   ("e_noise", e_noise); ("e_artif", e_artif)].

Definition instance_dict (i : instance) : list (string * attribute) :=
  [("_e_artif", AValue (_e_artif i)); ("_e_noise", AValue (_e_noise i));
   ("_e_interf", AValue (_e_interf i)); ("_s_target", AValue (_s_target i));
   ("max_len", ALength (max_len i)); ("noise", AObject (PFrame (noise i)));
   ("input_signal", AObject (PFrame (input_signal i)));
   ("estimated", AObject (PSeries (estimated i)));
   ("interference", AObject (interference i))].

(** The other names the class body binds, and the names every class takes
    from [object]. *)
Definition class_members : list string :=
  ["__init__"; "_projection"; "__doc__"; "__module__"; "__dict__"; "__weakref__"].

Definition object_members : list string :=
  ["__class__"; "__delattr__"; "__dir__"; "__eq__"; "__format__"; "__ge__";
   "__getattribute__"; "__getstate__"; "__gt__"; "__hash__";
   "__init_subclass__"; "__le__"; "__lt__"; "__ne__"; "__new__";
   "__reduce__"; "__reduce_ex__"; "__repr__"; "__setattr__"; "__sizeof__";
   "__str__"; "__subclasshook__"].

Fixpoint lookup {A : Type} (name : string) (d : list (string * A)) : option A :=
  match d with
  | [] => None
  | (k, a) :: rest => if String.eqb k name then Some a else lookup name rest
  end.

Definition getattr (name : string) : M attribute :=
  match lookup name properties with
  | Some getter => v <- getter ;; ret (AValue v)
  | None =>
      i <- read (fun i => i) ;;
      match lookup name (instance_dict i) with
      | Some a => ret a
      | None =>
          if existsb (String.eqb name) (class_members ++ object_members)
          then ret (AMember name)
          else lift (inl "AttributeError")
      end
  end.

(** *** The states an instance goes through

    A new instance holds the attributes the initializer assigns, with empty
    caches; afterwards only the properties change it. *)
Definition new_instance (estimated_source : Series) (input_signal : DataFrame)
    (interference : pdobj) (noise : DataFrame) : world :=
  mkWorld (fresh input_signal estimated_source interference noise) 0.

Inductive property : Type :=
| P_s_target
| P_e_interf
| P_e_noise
| P_e_artif.

Definition access (p : property) : M pyval :=
  match p with
  | P_s_target => s_target
  | P_e_interf => e_interf
  | P_e_noise => e_noise
  | P_e_artif => e_artif
  end.

Inductive reachable : world -> Prop :=
| reach_new : forall est inp itf noi,
    reachable (new_instance est inp itf noi)
| reach_access : forall w p,
    reachable w -> reachable (final (access p w)).

End BeamformingEvaluation.

(** ** Arrays *)

Module Numpy.
Import Pandas.

(** A numpy array of up to two axes.  A two-axis array keeps its number of
    columns, which its rows cannot tell when there are none; a zero-axis
    array is a scalar. *)
Inductive ndarray : Type :=
| Array0 (c : cell)
| Array1 (xs : list cell)
| Array2 (ncols : nat) (rows : list (list cell)).

(** The position an integer index names on an axis of [n] entries, counted
    from the end when negative. *)
Definition position (n : nat) (i : Z) : string + nat :=
  let j := if i <? 0 then i + Z.of_nat n else i in
  if (j <? 0) || (Z.of_nat n <=? j) then inl "IndexError" else inr (Z.to_nat j).

Definition pick {A : Type} (i : Z) (xs : list A) : string + A :=
  match position (List.length xs) i with
  | inl e => inl e
  | inr j =>
      match nth_error xs j with
      | Some x => inr x
      | None => inl "IndexError"
      end
  end.

(** [array[key]]: one item of the key per axis, a slice keeping the axis and
    an integer removing it.  More items than axes, and items that are
    neither, raise [IndexError]. *)
Definition ndarray_getitem (a : ndarray) (k : key) : string + ndarray :=
  let items := match k with KItem i => [i] | KTuple items => items end in
  match a, items with
  | _, [] => inr a
  | Array1 xs, [ISlice s e] => inr (Array1 (py_slice s e xs))
  | Array1 xs, [ILabel (LInt i)] =>
      match pick i xs with inl e => inl e | inr c => inr (Array0 c) end
  | Array2 n rows, [ISlice s e] => inr (Array2 n (py_slice s e rows))
  | Array2 n rows, [ILabel (LInt i)] =>
      match pick i rows with inl e => inl e | inr r => inr (Array1 r) end
  | Array2 n rows, [ISlice s e; ISlice s' e'] =>
      inr (Array2 (List.length (py_slice s' e' (repeat tt n)))
                  (map (py_slice s' e') (py_slice s e rows)))
  | Array2 n rows, [ILabel (LInt i); ISlice s' e'] =>
      match pick i rows with
      | inl e => inl e
      | inr r => inr (Array1 (py_slice s' e' r))
      end
  | Array2 n rows, [ISlice s e; ILabel (LInt j)] =>
      match position n j with
      | inl e => inl e
      | inr c => inr (Array1 (map (fun r => nth c r NaN) (py_slice s e rows)))
      end
  | Array2 n rows, [ILabel (LInt i); ILabel (LInt j)] =>
      match pick i rows with
      | inl e => inl e
      | inr r => match pick j r with inl e => inl e | inr c => inr (Array0 c) end
      end
  | _, _ => inl "IndexError"
  end.

End Numpy.

(** ** The class on objects of other types

    Python checks no annotation: [__init__] subscripts whatever it is given
    as [interference], and the properties hand whatever was stored to
    [pd.concat].  The class is embedded here a second time, with the
    interference a frame or an array and the statements the same. *)

Module Dynamic.
Import Pandas Py Numpy.
Local Open Scope py_scope.

Inductive interference_arg : Type :=
| OfFrame (f : DataFrame)
| OfArray (a : ndarray).

(** What the attribute [interference] holds. *)
Inductive pyobj : Type :=
| FromPandas (o : pdobj)
| FromNumpy (a : ndarray).

(** [interference[key]], by the type of the object. *)
Definition getitem (x : interference_arg) (k : key) : exn + pyobj :=
  match x with
  | OfFrame f =>
      match DataFrame_getitem f k with inl e => inl e | inr o => inr (FromPandas o) end
  | OfArray a =>
      match ndarray_getitem a k with inl e => inl e | inr b => inr (FromNumpy b) end
  end.

Record object : Type := mkObject {
  _e_artif : pyval;
  _e_noise : pyval;
  _e_interf : pyval;
  _s_target : pyval;
  max_len : nat;
  input_signal : DataFrame;
  estimated : Series;
  interference : pyobj;
  noise : DataFrame
}.

Definition fresh (input_signal : DataFrame) (estimated : Series)
    (interference : pyobj) (noise : DataFrame) : object :=
  mkObject VNone VNone VNone VNone (len estimated) input_signal estimated
           interference noise.

(** [__init__], statement by statement. *)
Definition init (estimated_source real_source : Series)
    (interference_arg : interference_arg) (noise_arg : noise_arg) : exn + object :=
  let max_len := len estimated_source in
  let stop := Some (Z.of_nat max_len) in
  (* self.input_signal = real_source[:self.max_len].to_frame() *)
  let input_signal := to_frame (Series_slice real_source None stop) in
  (* self.estimated = estimated_source *)
  let estimated := estimated_source in
  (* self.interference = interference[:self.max_len, :] *)
  try! interference <-
    getitem interference_arg (KTuple [ISlice None stop; ISlice None None]);
  (* self.noise = noise[:self.max_len].to_frame() *)
  try! noise_head <- noise_getitem noise_arg None stop;
  let noise := to_frame noise_head in
  inr (fresh input_signal estimated interference noise).

(** The state of a run: the object and the count of helper calls. *)
Record state : Type := mkState {
  self : object;
  projection_calls : nat
}.

Inductive outcome (A : Type) : Type :=
| Ret (a : A) (w : state)
| Raise (e : exn) (w : state).
Arguments Ret {A} a w.
Arguments Raise {A} e w.

Definition M (A : Type) : Type := state -> outcome A.

Definition ret {A : Type} (a : A) : M A := fun w => Ret a w.

Definition bind {A B : Type} (m : M A) (k : A -> M B) : M B :=
  fun w => match m w with
           | Ret a w' => k a w'
           | Raise e w' => Raise e w'
           end.

Definition lift {A : Type} (r : exn + A) : M A :=
  fun w => match r with
           | inr a => Ret a w
           | inl e => Raise e w
           end.

Definition read {A : Type} (field : object -> A) : M A :=
  fun w => Ret (field (self w)) w.

Definition write (update : object -> object) : M unit :=
  fun w => Ret tt (mkState (update (self w)) (projection_calls w)).

Definition final {A : Type} (o : outcome A) : state :=
  match o with
  | Ret _ w => w
  | Raise _ w => w
  end.

Notation "x <- m ;; k" := (bind m (fun x => k))
  (at level 61, m at next level, right associativity).
Notation "m ;; k" := (bind m (fun _ => k))
  (at level 61, right associativity).

Definition call_projection (signal subspace : pdobj) : M pyval :=
  fun w => Ret (BeamformingEvaluation._projection signal subspace)
               (mkState (self w) (S (projection_calls w))).

Definition set_s_target (v : pyval) (i : object) : object :=
  mkObject (_e_artif i) (_e_noise i) (_e_interf i) v (max_len i)
           (input_signal i) (estimated i) (interference i) (noise i).

Definition set_e_interf (v : pyval) (i : object) : object :=
  mkObject (_e_artif i) (_e_noise i) v (_s_target i) (max_len i)
           (input_signal i) (estimated i) (interference i) (noise i).

Definition set_e_noise (v : pyval) (i : object) : object :=
  mkObject (_e_artif i) v (_e_interf i) (_s_target i) (max_len i)
           (input_signal i) (estimated i) (interference i) (noise i).

Definition set_e_artif (v : pyval) (i : object) : object :=
  mkObject v (_e_noise i) (_e_interf i) (_s_target i) (max_len i)
           (input_signal i) (estimated i) (interference i) (noise i).

Definition unless (cached : pyval) (compute : M unit) : M unit :=
  t <- lift (truth cached) ;;
  if negb t then compute else ret tt.

(** The pandas objects among the members, when all of them are. *)
Fixpoint pandas_only (objs : list pyobj) : option (list pdobj) :=
  match objs with
  | [] => Some []
  | FromPandas o :: rest =>
      match pandas_only rest with
      | Some os => Some (o :: os)
      | None => None
      end
  | FromNumpy _ :: _ => None
  end.

(** [pd.concat(objs, axis=1)]: only series and frames can be members; an
    array among them raises [TypeError]. *)
Definition concat (objs : list pyobj) : exn + DataFrame :=
  match objs with
  | [] => inl "ValueError"
  | _ =>
      match pandas_only objs with
      | Some os => Pandas.concat os
      | None => inl "TypeError"
      end
  end.

Definition s_target : M pyval :=
  cached <- read _s_target ;;
  unless cached
    (signal <- read estimated ;;
     subspace <- read input_signal ;;
     v <- call_projection (PSeries signal) (PFrame subspace) ;;
     write (set_s_target v)) ;;
  read _s_target.

Definition e_interf : M pyval :=
  cached <- read _e_interf ;;
  unless cached
    (a <- read input_signal ;;
     b <- read interference ;;
     all_inputs <- lift (concat [FromPandas (PFrame a); b]) ;;
     signal <- read input_signal ;;
     p <- call_projection (PFrame signal) (PFrame all_inputs) ;;
     t <- s_target ;;
     v <- lift (sub p t) ;;
     write (set_e_interf v)) ;;
  read _e_interf.

Definition e_noise : M pyval :=
  cached <- read _e_noise ;;
  unless cached
    (a <- read input_signal ;;
     b <- read interference ;;
     c <- read noise ;;
     noised_inputs <-
       lift (concat [FromPandas (PFrame a); b; FromPandas (PFrame c)]) ;;
     signal <- read input_signal ;;
     noise_projection <- call_projection (PFrame signal) (PFrame noised_inputs) ;;
     i <- e_interf ;;
     t <- s_target ;;
     it <- lift (add i t) ;;
     v <- lift (sub noise_projection it) ;;
     write (set_e_noise v)) ;;
  read _e_noise.

Definition e_artif : M pyval :=
  cached <- read _e_artif ;;
  unless cached
    (est <- read estimated ;;
     n <- e_noise ;;
     i <- e_interf ;;
     ni <- lift (add n i) ;;
     t <- s_target ;;
     nit <- lift (add ni t) ;;
     v <- lift (sub (VSeries est) nit) ;;
     write (set_e_artif v)) ;;
  read _e_artif.

(** [self.s_target + self.e_interf + self.e_noise + self.e_artif] *)
Definition components_sum : M pyval :=
  t <- s_target ;;
  i <- e_interf ;;
  ti <- lift (add t i) ;;
  n <- e_noise ;;
  tin <- lift (add ti n) ;;
  a <- e_artif ;;
  lift (add tin a).

(** The state right after construction. *)
Definition start (o : object) : state := mkState o 0.

(** The object an instance of the typed embedding stands for, and the
    states and outcomes that correspond. *)
Definition of_instance (i : BeamformingEvaluation.instance) : object :=
  mkObject (BeamformingEvaluation._e_artif i) (BeamformingEvaluation._e_noise i)
           (BeamformingEvaluation._e_interf i) (BeamformingEvaluation._s_target i)
           (BeamformingEvaluation.max_len i) (BeamformingEvaluation.input_signal i)
           (BeamformingEvaluation.estimated i)
           (FromPandas (BeamformingEvaluation.interference i))
           (BeamformingEvaluation.noise i).

Definition of_world (w : BeamformingEvaluation.world) : state :=
  mkState (of_instance (BeamformingEvaluation.self w))
          (BeamformingEvaluation.projection_calls w).

Definition of_outcome {A : Type} (o : BeamformingEvaluation.outcome A) : outcome A :=
  match o with
  | BeamformingEvaluation.Ret a w => Ret a (of_world w)
  | BeamformingEvaluation.Raise e w => Raise e (of_world w)
  end.

Definition access (p : BeamformingEvaluation.property) : M pyval :=
  match p with
  | BeamformingEvaluation.P_s_target => s_target
  | BeamformingEvaluation.P_e_interf => e_interf
  | BeamformingEvaluation.P_e_noise => e_noise
  | BeamformingEvaluation.P_e_artif => e_artif
  end.

(** Accesses one after the other, whether they return or raise. *)
Definition accesses (ps : list BeamformingEvaluation.property) (w : state) : state :=
  fold_left (fun w p => final (access p w)) ps w.

(** An object with an array as interference on which at most [s_target] has
    been read. *)
Definition array_object (o : object) : Prop :=
  (exists a, interference o = FromNumpy a) /\
  (_s_target o = VNone \/ _s_target o = VInt 0) /\
  _e_interf o = VNone /\ _e_noise o = VNone /\ _e_artif o = VNone.

End Dynamic.

(** ** What the documentation asks of the class *)

Module Documented.
Import Pandas Py BeamformingEvaluation.
Local Open Scope Q_scope.

(** The orthogonal projection the docstring of [_projection] names, stated
    on exact vectors: [p] has the length of the signal, lies in the span of
    the basis columns, and leaves a residual orthogonal to each of them. *)
Definition dot (a b : list Q) : Q :=
  fold_right Qplus 0 (map (fun xy => fst xy * snd xy) (combine a b)).

Definition vsub (a b : list Q) : list Q :=
  map (fun xy => fst xy - snd xy) (combine a b).

Fixpoint combination (n : nat) (basis : list (list Q)) (coeffs : list Q) : list Q :=
  match basis, coeffs with
  | b :: bs, k :: ks =>
      map (fun xy => k * fst xy + snd xy) (combine b (combination n bs ks))
  | _, _ => repeat 0 n
  end.

Definition is_projection (signal : list Q) (basis : list (list Q)) (p : list Q) : Prop :=
  List.length p = List.length signal /\
  (exists coeffs, List.length coeffs = List.length basis /\
                  Forall2 Qeq p (combination (List.length signal) basis coeffs)) /\
  Forall (fun b => dot (vsub signal p) b == 0) basis.

(** A series of numbers. *)
Definition series_of (qs : list Q) : Series := mkSeries None (map Val qs).

(** The length check the specification words: some provided signal
    ([real_source], a column of [interference], or [noise]) has fewer
    samples than [estimated]. *)
Definition some_input_shorter (estimated_source real_source : Series)
    (interference_arg : DataFrame) (noise_arg : noise_arg) : bool :=
  (len real_source <? len estimated_source)%nat
  || existsb (fun c => (List.length (snd c) <? len estimated_source)%nat)
             (columns interference_arg)
  || match noise_arg with
     | NoiseSeries s => (len s <? len estimated_source)%nat
     | NoiseDefault => false
     end.

(** [self.s_target + self.e_interf + self.e_noise + self.e_artif], the left
    side of the decomposition identity, evaluated left to right. *)
Definition components_sum : M pyval :=
  t <- s_target ;;
  i <- e_interf ;;
  ti <- lift (add t i) ;;
  n <- e_noise ;;
  tin <- lift (add ti n) ;;
  a <- e_artif ;;
  lift (add tin a).

(** A cache that makes [not cache] true. *)
Definition falsy (v : pyval) : Prop := v = VNone \/ v = VInt 0.

(** The caches of an instance in use: the three projections hold nothing
    or the integer 0, the artifact cache nothing or the estimated signal. *)
Record cache_inv (w : world) : Prop := mkCacheInv {
  inv_s_target : falsy (_s_target (self w));
  inv_e_interf : falsy (_e_interf (self w));
  inv_e_noise : falsy (_e_noise (self w));
  inv_e_artif : _e_artif (self w) = VNone \/
                _e_artif (self w) = VSeries (estimated (self w))
}.

(** Sample inputs. *)
Definition one : Series := series_of [1].
Definition two_samples : Series := series_of [1; 2].
Definition three_samples : Series := series_of [1; 2; 3].

(** [np.zeros((2, 1))] *)
Definition zeros_2x1 : Numpy.ndarray := Numpy.Array2 1 [[Val 0]; [Val 0]].

End Documented.

(** ** An instance in use *)

Module Usage.
Import Pandas Py BeamformingEvaluation.

(** The attributes the initializer takes from its arguments. *)
Definition inputs (i : instance)
  : nat * DataFrame * Series * pdobj * DataFrame :=
  (max_len i, input_signal i, estimated i, interference i, noise i).

(** The four caches, in the order the properties depend on each other. *)
Definition caches (i : instance) : pyval * pyval * pyval * pyval :=
  (_s_target i, _e_interf i, _e_noise i, _e_artif i).

Definition cache_of (p : property) (i : instance) : pyval :=
  match p with
  | P_s_target => _s_target i
  | P_e_interf => _e_interf i
  | P_e_noise => _e_noise i
  | P_e_artif => _e_artif i
  end.

(** How far the caches of an instance are filled.  [e_interf] reads
    [s_target], [e_noise] reads both, [e_artif] reads all three, so a filled
    cache comes with the caches below it. *)
Inductive stage : Type :=
| Unused
| HasTarget
| HasInterf
| HasNoise
| HasArtif.

Definition rank (s : stage) : nat :=
  match s with
  | Unused => 0
  | HasTarget => 1
  | HasInterf => 2
  | HasNoise => 3
  | HasArtif => 4
  end.

Definition stage_of (p : property) : stage :=
  match p with
  | P_s_target => HasTarget
  | P_e_interf => HasInterf
  | P_e_noise => HasNoise
  | P_e_artif => HasArtif
  end.

Definition later (a b : stage) : stage :=
  if (rank a <=? rank b)%nat then b else a.

Definition caches_at (s : stage) (est : Series) : pyval * pyval * pyval * pyval :=
  match s with
  | Unused => (VNone, VNone, VNone, VNone)
  | HasTarget => (VInt 0, VNone, VNone, VNone)
  | HasInterf => (VInt 0, VInt 0, VNone, VNone)
  | HasNoise => (VInt 0, VInt 0, VInt 0, VNone)
  | HasArtif => (VInt 0, VInt 0, VInt 0, VSeries est)
  end.

Definition at_stage (s : stage) (i : instance) : Prop :=
  caches i = caches_at s (estimated i).

(** The calls of [_projection] one access makes. *)
Definition cost (p : property) (s : stage) : nat :=
  match p, s with
  | P_s_target, _ => 1
  | P_e_interf, _ => 2
  | P_e_noise, _ => 4
  | P_e_artif, HasArtif => 0
  | P_e_artif, _ => 7
  end.

(** Accesses one after the other, whether they return or raise. *)
Definition accesses (ps : list property) (w : world) : world :=
  fold_left (fun w p => final (access p w)) ps w.

(** The names bound to properties in the class body, and the attribute each
    property keeps its result in. *)
Definition property_names : list string :=
  ["s_target"; "e_interf"; "e_noise"; "e_artif"].

Definition cache_name (p : property) : string :=
  match p with
  | P_s_target => "_s_target"
  | P_e_interf => "_e_interf"
  | P_e_noise => "_e_noise"
  | P_e_artif => "_e_artif"
  end.

(** A computation that leaves the inputs of the instance alone and never
    takes back a counted call. *)
Definition keeps_inputs {A : Type} (m : M A) : Prop :=
  forall w : world,
    inputs (self (final (m w))) = inputs (self w) /\
    (projection_calls w <= projection_calls (final (m w)))%nat.

End Usage.

(** * Facts about the pandas layer *)

Module PandasFacts.
Import Pandas.

Lemma Qminus_zero (q : Q) : Qminus q (inject_Z 0) = q.
Proof.
  destruct q as [n d]. unfold Qminus, Qplus, Qopp, inject_Z. simpl.
  rewrite Z.mul_1_r, Z.add_0_r, Pos.mul_1_r. reflexivity.
Qed.

Lemma zero_Qplus (q : Q) : Qplus (inject_Z 0) q = q.
Proof.
  destruct q as [n d]. unfold Qplus, inject_Z. simpl.
  rewrite Z.mul_1_r. reflexivity.
Qed.

Lemma cell_sub_zero (c : cell) : cell_op Qminus c (Val (inject_Z 0)) = c.
Proof. destruct c; simpl; [reflexivity | now rewrite Qminus_zero]. Qed.

Lemma zero_add_cell (c : cell) : cell_op Qplus (Val (inject_Z 0)) c = c.
Proof. destruct c; simpl; [reflexivity | now rewrite zero_Qplus]. Qed.

(** [series - 0] is the series, sample for sample. *)
Lemma Series_sub_zero (s : Series) : Series_op_scalar Qminus s 0 = s.
Proof.
  destruct s as [n vs]. unfold Series_op_scalar. cbn [name values]. f_equal.
  induction vs as [|c vs IH]; cbn [map]; [reflexivity|].
  now rewrite cell_sub_zero, IH.
Qed.

(** [0 + series] is the series, sample for sample. *)
Lemma zero_add_Series (s : Series) : scalar_op_Series Qplus 0 s = s.
Proof.
  destruct s as [n vs]. unfold scalar_op_Series. cbn [name values]. f_equal.
  induction vs as [|c vs IH]; cbn [map]; [reflexivity|].
  now rewrite zero_add_cell, IH.
Qed.

(** [l[:n]] keeps the first [n] elements. *)
Lemma py_slice_head {A : Type} (n : nat) (l : list A) :
  py_slice None (Some (Z.of_nat n)) l = firstn n l.
Proof.
  unfold py_slice, slice_bound.
  destruct (Z.ltb_spec (Z.of_nat n) 0) as [Hneg|_]; [lia|].
  simpl skipn. rewrite Z.sub_0_r.
  destruct (Nat.le_gt_cases n (List.length l)) as [Hle|Hgt].
  - rewrite Z.min_l by lia. now rewrite Nat2Z.id.
  - rewrite Z.min_r by lia. rewrite Nat2Z.id.
    rewrite !firstn_all2 by lia. reflexivity.
Qed.

(** [l[:]] is the whole list. *)
Lemma py_slice_all {A : Type} (l : list A) : py_slice None None l = l.
Proof.
  unfold py_slice. simpl skipn. rewrite Z.sub_0_r, Nat2Z.id.
  apply firstn_all.
Qed.

Lemma Series_slice_head (s : Series) (n : nat) :
  values (Series_slice s None (Some (Z.of_nat n))) = firstn n (values s).
Proof. apply py_slice_head. Qed.

Lemma len_Series_slice_head (s : Series) (n : nat) :
  len (Series_slice s None (Some (Z.of_nat n))) = Nat.min n (len s).
Proof.
  unfold len. rewrite Series_slice_head. apply length_firstn.
Qed.

(** A series compared with itself is [True] exactly at its numbers. *)
Lemma Series_eq_self (s : Series) :
  Series_eq s s = inr (map is_number (values s)).
Proof.
  unfold Series_eq. rewrite Nat.eqb_refl. f_equal.
  induction (values s) as [|c vs IH]; simpl; [reflexivity|].
  rewrite IH. f_equal. destruct c; simpl; [reflexivity|].
  apply Qeq_bool_refl.
Qed.

End PandasFacts.

(** * Facts about the class *)

Module ClassFacts.
Import Pandas Py BeamformingEvaluation Documented PandasFacts.

(** ** Running one property *)

Ltac open_world w :=
  let i := fresh "i" in
  let n := fresh "n" in
  destruct w as [i n]; destruct i; cbn [self projection_calls
    _e_artif _e_noise _e_interf _s_target estimated] in *.

Ltac split_falsy :=
  repeat match goal with
         | H : falsy _ |- _ => destruct H; subst
         end.

(** With a falsy cache, [s_target] calls the helper, stores 0, returns 0. *)
Lemma s_target_runs (w : world) :
  falsy (_s_target (self w)) ->
  s_target w = Ret (VInt 0)
    (mkWorld (set_s_target (VInt 0) (self w)) (1 + projection_calls w)).
Proof.
  intros H. open_world w. split_falsy; reflexivity.
Qed.

Lemma e_interf_runs (w : world) :
  falsy (_s_target (self w)) -> falsy (_e_interf (self w)) ->
  e_interf w = Ret (VInt 0)
    (mkWorld (set_e_interf (VInt 0) (set_s_target (VInt 0) (self w)))
             (2 + projection_calls w)).
Proof.
  intros Ht Hi. open_world w. split_falsy; reflexivity.
Qed.

Lemma e_noise_runs (w : world) :
  falsy (_s_target (self w)) -> falsy (_e_interf (self w)) ->
  falsy (_e_noise (self w)) ->
  e_noise w = Ret (VInt 0)
    (mkWorld (set_e_noise (VInt 0)
                (set_e_interf (VInt 0) (set_s_target (VInt 0) (self w))))
             (4 + projection_calls w)).
Proof.
  intros Ht Hi Hn. open_world w. split_falsy; reflexivity.
Qed.

(** With an empty artifact cache, [e_artif] returns the estimated signal
    (the signal minus 0) after seven calls of the helper. *)
Lemma e_artif_runs (w : world) :
  falsy (_s_target (self w)) -> falsy (_e_interf (self w)) ->
  falsy (_e_noise (self w)) -> _e_artif (self w) = VNone ->
  e_artif w = Ret (VSeries (estimated (self w)))
    (mkWorld (set_e_artif (VSeries (estimated (self w)))
                (set_e_noise (VInt 0)
                   (set_e_interf (VInt 0) (set_s_target (VInt 0) (self w)))))
             (7 + projection_calls w)).
Proof.
  intros Ht Hi Hn Ha.
  destruct w as [[ca cn ci ct ml inp est itf noi] k].
  cbn [self projection_calls _e_artif _e_noise _e_interf _s_target estimated] in *.
  subst ca.
  split_falsy;
    (transitivity
       (Ret (VSeries (Series_op_scalar Qminus est 0))
          (mkWorld
             (mkInstance (VSeries (Series_op_scalar Qminus est 0))
                (VInt 0) (VInt 0) (VInt 0) ml inp est itf noi) (7 + k)));
     [reflexivity | now rewrite Series_sub_zero]).
Qed.

(** A cached series stops every later access of [e_artif]. *)
Lemma e_artif_cached_raises (w : world) (s : Series) :
  _e_artif (self w) = VSeries s -> e_artif w = Raise "ValueError" w.
Proof.
  intros Ha. open_world w. subst. reflexivity.
Qed.

(** ** The caches of an instance in use *)

Lemma cache_inv_new (est : Series) (inp : DataFrame) (itf : pdobj)
    (noi : DataFrame) : cache_inv (new_instance est inp itf noi).
Proof.
  split; cbn; try (left; reflexivity).
Qed.

Lemma cache_inv_access (w : world) (p : property) :
  cache_inv w -> cache_inv (final (access p w)).
Proof.
  intros [Ht Hi Hn Ha]. destruct p; cbn [access].
  - rewrite s_target_runs by assumption. cbn [final].
    split; cbn; auto. right; reflexivity.
  - rewrite e_interf_runs by assumption. cbn [final].
    split; cbn; auto; right; reflexivity.
  - rewrite e_noise_runs by assumption. cbn [final].
    split; cbn; auto; right; reflexivity.
  - destruct Ha as [Ha|Ha].
    + rewrite e_artif_runs by assumption. cbn [final].
      split; cbn; auto; right; reflexivity.
    + rewrite (e_artif_cached_raises w _ Ha). cbn [final].
      split; auto.
Qed.

Lemma reachable_cache_inv (w : world) : reachable w -> cache_inv w.
Proof.
  induction 1 as [est inp itf noi | w p _ IH].
  - apply cache_inv_new.
  - now apply cache_inv_access.
Qed.

(** No property changes the estimated signal. *)
Lemma access_keeps_estimated (w : world) (p : property) :
  cache_inv w -> estimated (self (final (access p w))) = estimated (self w).
Proof.
  intros [Ht Hi Hn Ha]. destruct p; cbn [access].
  - now rewrite s_target_runs.
  - now rewrite e_interf_runs.
  - now rewrite e_noise_runs.
  - destruct Ha as [Ha|Ha].
    + now rewrite e_artif_runs.
    + now rewrite (e_artif_cached_raises w _ Ha).
Qed.

End ClassFacts.

(** * The documented behaviour against the class *)

Module Properties.
Import Pandas Py BeamformingEvaluation Documented PandasFacts ClassFacts.
Local Open Scope Q_scope.

(** ** The projection helper *)

(** On the one-sample signal [1] and the basis whose only column is [1], the
    documented projection is the vector [1]. *)
Lemma is_projection_one : is_projection [1] [[1]] [1].
Proof.
  repeat split.
  - exists [1]. split; [reflexivity|]. constructor; [|constructor].
    cbn. reflexivity.
  - constructor; [|constructor]. cbn. reflexivity.
Qed.

Lemma is_projection_one_unique (p : list Q) :
  is_projection [1] [[1]] p -> Forall2 Qeq p [1].
Proof.
  intros (Hlen & _ & Horth).
  destruct p as [|x [|y p]]; try discriminate Hlen.
  inversion Horth as [|b bs Hdot _]; subst.
  unfold dot, vsub in Hdot. cbn in Hdot.
  constructor; [|constructor].
  assert (E : (1 - x) * 1 + 0 == 0) by exact Hdot.
  clear -E. ring_simplify in E.
  rewrite <- (Qplus_0_r x), <- E. ring.
Qed.

(** Onto no column at all, the documented projection of [1] is the zero
    vector of one sample. *)
Lemma is_projection_empty_basis : is_projection [1] [] [0].
Proof.
  repeat split.
  - exists []. split; [reflexivity|]. constructor; [|constructor].
    reflexivity.
  - constructor.
Qed.

(** C1, as the code has it: [_projection] returns the integer 0 where the
    documented orthogonal projection is a vector.  For the signal [1] and
    the basis with the single column [1] the projection is the vector [1]
    (and nothing else), and onto a basis without columns it is the zero
    vector of length one; in both cases the helper returns the scalar 0,
    which is no series. *)
Theorem projection_returns_scalar_not_vector :
  is_projection [1] [[1]] [1] /\
  (forall p, is_projection [1] [[1]] p -> Forall2 Qeq p [1]) /\
  is_projection [1] [] [0] /\
  _projection (PSeries one) (PFrame (to_frame one)) = VInt 0%Z /\
  _projection (PSeries one) (PFrame (mkFrame 1 [])) = VInt 0%Z /\
  (forall s : Series, VInt 0%Z <> VSeries s).
Proof.
  split; [exact is_projection_one|].
  split; [exact is_projection_one_unique|].
  split; [exact is_projection_empty_basis|].
  repeat split; try reflexivity. intros s; discriminate.
Qed.

Local Close Scope Q_scope.

(** ** The initializer *)

(** The subscript of [interference] is a tuple that holds a slice, so the
    statement raises for every frame. *)
Lemma interference_subscript_raises (f : DataFrame) (stop : option Z) :
  DataFrame_getitem f (KTuple [ISlice None stop; ISlice None None])
  = inl (refused_key f).
Proof. reflexivity. Qed.

(** With a two-axis array as interference and a series as noise every
    statement of the initializer succeeds: the object holds the first
    [max_len] rows of the array. *)
Lemma init_with_array_completes (estimated_source real_source noise : Series)
    (n : nat) (rows : list (list cell)) :
  Dynamic.init estimated_source real_source
    (Dynamic.OfArray (Numpy.Array2 n rows)) (NoiseSeries noise)
  = inr (Dynamic.fresh
           (to_frame (Series_slice real_source None
                        (Some (Z.of_nat (len estimated_source)))))
           estimated_source
           (Dynamic.FromNumpy
              (Numpy.Array2 n (firstn (len estimated_source) rows)))
           (to_frame (Series_slice noise None
                        (Some (Z.of_nat (len estimated_source)))))).
Proof.
  unfold Dynamic.init, Dynamic.getitem, Numpy.ndarray_getitem, try, noise_getitem.
  rewrite py_slice_head, py_slice_all, repeat_length.
  rewrite (map_ext _ (fun r => r)) by (intros r; apply py_slice_all).
  now rewrite map_id.
Qed.

(** C3, against the wording "every combination of constructor arguments":
    with [np.zeros((2, 1))] as interference and a series of two samples as
    noise, the initializer completes and returns an instance. *)
Lemma init_completes_with_array_counterexample :
  Dynamic.init two_samples two_samples (Dynamic.OfArray zeros_2x1)
    (NoiseSeries two_samples)
  = inr (Dynamic.fresh (to_frame two_samples) two_samples
           (Dynamic.FromNumpy zeros_2x1) (to_frame two_samples)).
Proof. reflexivity. Qed.

(** C3, amended: the initializer raises before it completes whenever the
    interference is a frame (the default [pd.DataFrame()] included), for
    every estimated signal, real source and noise: the frame refuses the
    tuple of two slices, with [KeyError] from default columns and
    [InvalidIndexError] from labelled ones.  It also raises whenever the
    noise is omitted, whatever the interference, since the default is the
    class object, whose subscript raises [TypeError].  With a two-axis array
    as interference and a series as noise it completes. *)
Theorem init_raises_on_frames_and_omitted_noise
    (estimated_source real_source : Series) :
  (forall (f : DataFrame) (noise_arg : noise_arg),
      init estimated_source real_source f noise_arg = inl (refused_key f) /\
      Dynamic.init estimated_source real_source (Dynamic.OfFrame f) noise_arg
        = inl (refused_key f)) /\
  init estimated_source real_source empty_frame NoiseDefault = inl "KeyError" /\
  (forall x : Dynamic.interference_arg,
      exists e, Dynamic.init estimated_source real_source x NoiseDefault = inl e) /\
  noise_getitem NoiseDefault None (Some (Z.of_nat (len estimated_source)))
    = inl "TypeError" /\
  (forall (n : nat) (rows : list (list cell)) (noise : Series),
      exists o,
        Dynamic.init estimated_source real_source
          (Dynamic.OfArray (Numpy.Array2 n rows)) (NoiseSeries noise) = inr o /\
        Dynamic.interference o
        = Dynamic.FromNumpy
            (Numpy.Array2 n (firstn (len estimated_source) rows))).
Proof.
  split; [intros f noise_arg; split; reflexivity|].
  split; [reflexivity|].
  split.
  - intros [f|a].
    + exists (refused_key f). reflexivity.
    + unfold Dynamic.init, Dynamic.getitem, try.
      destruct (Numpy.ndarray_getitem a _) as [e|b]; [now exists e|].
      exists "TypeError". reflexivity.
  - split; [reflexivity|].
    intros n rows noise. eexists. split; [apply init_with_array_completes|].
    reflexivity.
Qed.

(** No subscript of a frame raises [DimensionError]. *)
Lemma DataFrame_getitem_not_DimensionError (f : DataFrame) (k : key) :
  DataFrame_getitem f k <> inl "DimensionError".
Proof.
  destruct k as [[l|a b]|items]; cbn.
  - destruct (select l f) as [|c [|c' cs]]; discriminate.
  - discriminate.
  - unfold refused_key, invalid_key.
    destruct (existsb is_slice items); [destruct (default_columns f)|];
      discriminate.
Qed.

Lemma noise_getitem_not_DimensionError (n : noise_arg) (a b : option Z) :
  noise_getitem n a b <> inl "DimensionError".
Proof. destruct n; discriminate. Qed.

(** C4, against the specification's wording: with an estimated signal of two
    samples and a real source of one, an input is shorter than the estimated
    signal, yet the initializer does not raise [DimensionError]. *)
Lemma init_short_real_source_counterexample :
  ~ (init two_samples one empty_frame (NoiseSeries two_samples)
       = inl "DimensionError"
     <-> some_input_shorter two_samples one empty_frame
           (NoiseSeries two_samples) = true).
Proof.
  intros [_ H]. specialize (H eq_refl). discriminate H.
Qed.

(** C4, amended: the initializer never raises [DimensionError], whatever the
    lengths of its inputs; it has no length check, and the slice
    [real_source[:M]] keeps the first min(M, len(real_source)) samples, so a
    real source shorter than the estimated signal passes that statement
    unchanged. *)
Theorem init_never_raises_DimensionError (estimated_source real_source : Series)
    (interference_arg : DataFrame) (noise_arg : noise_arg) :
  init estimated_source real_source interference_arg noise_arg
    <> inl "DimensionError" /\
  values (Series_slice real_source None (Some (Z.of_nat (len estimated_source))))
    = firstn (len estimated_source) (values real_source) /\
  len (Series_slice real_source None (Some (Z.of_nat (len estimated_source))))
    = Nat.min (len estimated_source) (len real_source).
Proof.
  split; [|split].
  - unfold init, try.
    destruct (DataFrame_getitem interference_arg _) as [e|itf] eqn:E1.
    + intros H. injection H as ->.
      exact (DataFrame_getitem_not_DimensionError _ _ E1).
    + destruct (noise_getitem noise_arg _ _) as [e|nh] eqn:E2.
      * intros H. injection H as ->.
        exact (noise_getitem_not_DimensionError _ _ _ E2).
      * discriminate.
  - apply Series_slice_head.
  - apply len_Series_slice_head.
Qed.

(** C8, as the code has it: with the noise argument omitted (and the
    interference argument too) the initializer raises for every estimated
    signal and real source; the statement that slices the noise would
    subscript the class object [pd.Series] and raise as well. *)
Theorem init_without_noise_raises (estimated_source real_source : Series) :
  init estimated_source real_source empty_frame NoiseDefault
    = inl "KeyError" /\
  (forall interference_arg : DataFrame,
      init estimated_source real_source interference_arg NoiseDefault
        = inl (refused_key interference_arg)) /\
  (forall stop : option Z, noise_getitem NoiseDefault None stop = inl "TypeError").
Proof. repeat split. Qed.

(** C9, as the code has it: with an estimated signal of two samples and a
    real source and a noise of three, the slice of the real source keeps its
    first two samples, but the initializer raises at the next statement, so
    no instance holds the truncated inputs. *)
Theorem init_truncation_raises :
  len two_samples = 2%nat /\ len three_samples = 3%nat /\
  Series_slice three_samples None (Some (Z.of_nat (len two_samples)))
    = two_samples /\
  init two_samples three_samples empty_frame (NoiseSeries three_samples)
    = inl "KeyError".
Proof. repeat split. Qed.

(** ** The properties *)

(** C10: [_projection] returns the integer 0 for every signal and every
    subspace.  Hence on every instance in use [s_target], [e_interf] and
    [e_noise] evaluate to the integer 0, and whenever [e_artif] returns, it
    returns the estimated signal unchanged, which it does as long as its
    cache is empty. *)
Theorem projection_zero_everywhere (signal subspace : pdobj) (w : world)
    (Hw : reachable w) :
  _projection signal subspace = VInt 0 /\
  (exists w', s_target w = Ret (VInt 0) w') /\
  (exists w', e_interf w = Ret (VInt 0) w') /\
  (exists w', e_noise w = Ret (VInt 0) w') /\
  (forall v w', e_artif w = Ret v w' -> v = VSeries (estimated (self w))) /\
  (_e_artif (self w) = VNone ->
   exists w', e_artif w = Ret (VSeries (estimated (self w))) w').
Proof.
  destruct (reachable_cache_inv w Hw) as [Ht Hi Hn Ha].
  split; [reflexivity|].
  split; [eexists; now apply s_target_runs|].
  split; [eexists; now apply e_interf_runs|].
  split; [eexists; now apply e_noise_runs|].
  split.
  - intros v w' Hrun. destruct Ha as [Ha|Ha].
    + rewrite e_artif_runs in Hrun by assumption. now inversion Hrun.
    + rewrite (e_artif_cached_raises w _ Ha) in Hrun. discriminate Hrun.
  - intros Hnone. eexists. now apply e_artif_runs.
Qed.

Lemma projection_zero_everywhere_witness :
  reachable (new_instance two_samples (to_frame two_samples)
               (PFrame empty_frame) (to_frame two_samples)) /\
  e_artif (new_instance two_samples (to_frame two_samples)
             (PFrame empty_frame) (to_frame two_samples))
  = Ret (VSeries two_samples)
        (final (e_artif (new_instance two_samples (to_frame two_samples)
                           (PFrame empty_frame) (to_frame two_samples)))) /\
  (exists w',
      s_target (new_instance two_samples (to_frame two_samples)
                  (PFrame empty_frame) (to_frame two_samples))
      = Ret (VInt 0) w').
Proof.
  split; [apply reach_new|].
  split; [vm_compute; reflexivity|].
  exact (proj1 (proj2 (projection_zero_everywhere
                         (PSeries two_samples) (PFrame empty_frame) _
                         (reach_new two_samples (to_frame two_samples)
                            (PFrame empty_frame) (to_frame two_samples))))).
Defined.

(** The identity while the artifact cache is empty: on every instance in use
    whose artifact cache holds nothing (a new instance in particular), the
    four properties return, and their sum
    [s_target + e_interf + e_noise + e_artif] is the estimated signal, sample
    for sample; compared with [==] against the estimated signal it is [True]
    at every sample that is a number. *)
Theorem decomposition_identity (w : world) (Hw : reachable w)
    (Hfresh : _e_artif (self w) = VNone) :
  (exists w', components_sum w = Ret (VSeries (estimated (self w))) w') /\
  Series_eq (estimated (self w)) (estimated (self w))
    = inr (map is_number (values (estimated (self w)))).
Proof.
  split; [|apply Series_eq_self].
  destruct (reachable_cache_inv w Hw) as [Ht Hi Hn _].
  unfold components_sum, bind.
  rewrite s_target_runs by assumption.
  rewrite e_interf_runs by (cbn; auto; right; reflexivity).
  cbn [lift add binop Z.add].
  rewrite e_noise_runs by (cbn; auto; right; reflexivity).
  cbn [lift add binop Z.add].
  rewrite e_artif_runs by (cbn; auto; right; reflexivity).
  cbn [lift add binop self estimated set_e_noise set_e_interf set_s_target].
  rewrite zero_add_Series. eexists. reflexivity.
Qed.

Lemma decomposition_identity_witness :
  reachable (new_instance two_samples (to_frame two_samples)
               (PFrame empty_frame) (to_frame two_samples)) /\
  (exists w',
      components_sum (new_instance two_samples (to_frame two_samples)
                        (PFrame empty_frame) (to_frame two_samples))
      = Ret (VSeries two_samples) w') /\
  Series_eq two_samples two_samples = inr [true; true].
Proof.
  split; [apply reach_new|].
  exact (decomposition_identity _
           (reach_new two_samples (to_frame two_samples)
              (PFrame empty_frame) (to_frame two_samples)) eq_refl).
Defined.

(** On an object whose interference is an array, [e_interf] raises
    [TypeError] before any call of the helper: [pd.concat] takes only series
    and frames. *)
Lemma e_interf_array_raises (o : Dynamic.object) (k : nat) (a : Numpy.ndarray) :
  Dynamic._e_interf o = VNone ->
  Dynamic.interference o = Dynamic.FromNumpy a ->
  Dynamic.e_interf (Dynamic.mkState o k)
  = Dynamic.Raise "TypeError" (Dynamic.mkState o k).
Proof.
  destruct o as [ca cn ci ct ml inp est itf noi]. cbn. intros -> ->.
  reflexivity.
Qed.

(** C2, as the code has it: the sum of the four properties cannot be
    evaluated on an instance the initializer builds, and at most once on any
    other.  With a two-axis array as interference and a series as noise the
    initializer returns an instance, and on it the sum raises [TypeError]:
    [s_target] returns 0 and [e_interf] hands the array to [pd.concat].  On
    an instance whose interference is a frame or a series (as the assignments
    of the initializer would leave it) the first evaluation of the sum gives
    the estimated signal, and the second raises [ValueError] at [e_artif]. *)
Theorem decomposition_sum_raises (estimated_source real_source noise : Series)
    (n : nat) (rows : list (list cell)) :
  (exists o w',
      Dynamic.init estimated_source real_source
        (Dynamic.OfArray (Numpy.Array2 n rows)) (NoiseSeries noise) = inr o /\
      Dynamic.components_sum (Dynamic.start o) = Dynamic.Raise "TypeError" w') /\
  (forall (inp : DataFrame) (itf : pdobj) (noi : DataFrame),
      exists w1 w2,
        components_sum (new_instance estimated_source inp itf noi)
        = Ret (VSeries estimated_source) w1 /\
        components_sum w1 = Raise "ValueError" w2).
Proof.
  split.
  - eexists. eexists. split; [apply init_with_array_completes|].
    cbv. reflexivity.
  - intros inp itf noi. eexists. eexists. split.
    + unfold components_sum, bind.
      rewrite s_target_runs by (cbn; first [left; reflexivity | right; reflexivity]).
      rewrite e_interf_runs by (cbn; first [left; reflexivity | right; reflexivity | reflexivity]).
      cbn [lift add binop Z.add].
      rewrite e_noise_runs by (cbn; first [left; reflexivity | right; reflexivity | reflexivity]).
      cbn [lift add binop Z.add].
      rewrite e_artif_runs by (cbn; first [left; reflexivity | right; reflexivity | reflexivity]).
      cbn [lift add binop self estimated set_e_noise set_e_interf set_s_target].
      rewrite zero_add_Series. reflexivity.
    + cbv. reflexivity.
Qed.

(** C5, as the code has it: the class defines none of [SDR], [SIR], [SNR]
    and [SAR]; on every instance the lookup of each of the four names raises
    [AttributeError] and leaves the instance as it was. *)
Theorem ratio_accessors_missing (w : world) :
  getattr "SDR" w = Raise "AttributeError" w /\
  getattr "SIR" w = Raise "AttributeError" w /\
  getattr "SNR" w = Raise "AttributeError" w /\
  getattr "SAR" w = Raise "AttributeError" w.
Proof. repeat split. Qed.

(** C6, as the code has it: on every new instance a second access of
    [s_target] calls the helper a second time, since the stored 0 is falsy;
    one access of [e_artif] calls the helper seven times (three derived
    quantities are involved); and a second access of [e_artif] raises
    [ValueError], since the cached series has no truth value. *)
Theorem properties_not_memoized (est : Series) (inp : DataFrame)
    (itf : pdobj) (noi : DataFrame) :
  projection_calls (final (s_target (new_instance est inp itf noi))) = 1%nat /\
  projection_calls
    (final (s_target (final (s_target (new_instance est inp itf noi))))) = 2%nat /\
  projection_calls (final (e_artif (new_instance est inp itf noi))) = 7%nat /\
  e_artif (final (e_artif (new_instance est inp itf noi)))
    = Raise "ValueError" (final (e_artif (new_instance est inp itf noi))).
Proof.
  split; [reflexivity|]. split; [reflexivity|].
  rewrite e_artif_runs by (try (left; reflexivity); reflexivity).
  cbn [final]. split; [reflexivity|].
  eapply e_artif_cached_raises. reflexivity.
Qed.

(** C7, as the code has it: on every new instance whose interference frame
    has no column, [e_interf] returns the integer 0 (0 - 0), not a series of
    zeros of the length of the estimated signal. *)
Theorem e_interf_without_interference_is_scalar (est : Series)
    (inp noi : DataFrame) (rows : nat) :
  (exists w',
      e_interf (new_instance est inp (PFrame (mkFrame rows [])) noi)
      = Ret (VInt 0) w') /\
  (forall (nm : option label) (w' : world),
      e_interf (new_instance est inp (PFrame (mkFrame rows [])) noi)
      <> Ret (VSeries (mkSeries nm (repeat (Val 0) (len est)))) w').
Proof.
  assert (E : e_interf (new_instance est inp (PFrame (mkFrame rows [])) noi)
              = Ret (VInt 0)
                  (final (e_interf (new_instance est inp
                                      (PFrame (mkFrame rows [])) noi))))
    by reflexivity.
  split; [eexists; exact E|].
  intros nm w'. rewrite E. discriminate.
Qed.

End Properties.

(** * An instance in use: what the properties do to it *)

Module Behaviour.
Import Pandas Py BeamformingEvaluation Documented Usage PandasFacts ClassFacts.

(** ** The inputs are never written *)

Lemma keeps_inputs_ret {A : Type} (a : A) : keeps_inputs (ret a).
Proof. intros w. split; [reflexivity | apply Nat.le_refl]. Qed.

Lemma keeps_inputs_lift {A : Type} (r : exn + A) : keeps_inputs (lift r).
Proof. intros w. unfold lift. destruct r; split; cbn; auto. Qed.

Lemma keeps_inputs_read {A : Type} (f : instance -> A) : keeps_inputs (read f).
Proof. intros w. split; [reflexivity | apply Nat.le_refl]. Qed.

Lemma keeps_inputs_call (signal subspace : pdobj) :
  keeps_inputs (call_projection signal subspace).
Proof. intros w. split; cbn; auto. Qed.

Lemma keeps_inputs_write (update : instance -> instance) :
  (forall i, inputs (update i) = inputs i) -> keeps_inputs (write update).
Proof. intros H w. split; cbn; auto. Qed.

Lemma keeps_inputs_bind {A B : Type} (m : M A) (k : A -> M B) :
  keeps_inputs m -> (forall a, keeps_inputs (k a)) -> keeps_inputs (bind m k).
Proof.
  intros Hm Hk w. unfold bind.
  destruct (Hm w) as [Hi Hc]. destruct (m w) as [a w'|e w']; cbn [final] in *.
  - destruct (Hk a w') as [Hi' Hc']. split.
    + now rewrite Hi'.
    + eapply Nat.le_trans; eassumption.
  - now split.
Qed.

Lemma keeps_inputs_unless (cached : pyval) (compute : M unit) :
  keeps_inputs compute -> keeps_inputs (unless cached compute).
Proof.
  intros H. unfold unless. apply keeps_inputs_bind.
  - apply keeps_inputs_lift.
  - intros t. destruct (negb t); [assumption | apply keeps_inputs_ret].
Qed.

Ltac keeps :=
  repeat first
    [ apply keeps_inputs_ret
    | apply keeps_inputs_lift
    | apply keeps_inputs_read
    | apply keeps_inputs_call
    | apply keeps_inputs_write; intros []; reflexivity
    | apply keeps_inputs_unless
    | apply keeps_inputs_bind; [|intros ?]
    | assumption ].

Lemma keeps_inputs_s_target : keeps_inputs s_target.
Proof. unfold s_target. keeps. Qed.

Lemma keeps_inputs_e_interf : keeps_inputs e_interf.
Proof. pose proof keeps_inputs_s_target. unfold e_interf. keeps. Qed.

Lemma keeps_inputs_e_noise : keeps_inputs e_noise.
Proof.
  pose proof keeps_inputs_s_target. pose proof keeps_inputs_e_interf.
  unfold e_noise. keeps.
Qed.

Lemma keeps_inputs_e_artif : keeps_inputs e_artif.
Proof.
  pose proof keeps_inputs_s_target. pose proof keeps_inputs_e_interf.
  pose proof keeps_inputs_e_noise. unfold e_artif. keeps.
Qed.

(** X1: whatever the caches of an instance hold, an access of any of the four
    properties leaves [max_len], [input_signal], [estimated], [interference]
    and [noise] as they were, whether it returns or raises, and the count of
    helper calls never goes down. *)
Theorem access_keeps_inputs (p : property) (w : world) :
  inputs (self (final (access p w))) = inputs (self w) /\
  (projection_calls w <= projection_calls (final (access p w)))%nat.
Proof.
  destruct p; cbn [access].
  - apply keeps_inputs_s_target.
  - apply keeps_inputs_e_interf.
  - apply keeps_inputs_e_noise.
  - apply keeps_inputs_e_artif.
Qed.

Lemma keeps_inputs_access (p : property) : keeps_inputs (access p).
Proof.
  destruct p; cbn [access];
    [ apply keeps_inputs_s_target | apply keeps_inputs_e_interf
    | apply keeps_inputs_e_noise | apply keeps_inputs_e_artif ].
Qed.

(** ** The guard of the caches *)

(** X2: a property whose cache holds a non-zero integer returns that integer
    at once: no call of the helper, no change of the instance. *)
Theorem truthy_cache_served (p : property) (w : world) (z : Z)
    (Hcache : cache_of p (self w) = VInt z) (Hz : z <> 0) :
  access p w = Ret (VInt z) w.
Proof.
  destruct w as [[ca cn ci ct ml inp est itf noi] k].
  destruct p; cbn [cache_of self _s_target _e_interf _e_noise _e_artif] in Hcache;
    subst; (destruct z; [contradiction | reflexivity | reflexivity]).
Qed.

Lemma truthy_cache_served_witness :
  access P_e_noise
    (mkWorld (set_e_noise (VInt 5)
                (fresh (to_frame two_samples) two_samples
                   (PFrame empty_frame) (to_frame two_samples))) 3)
  = Ret (VInt 5)
      (mkWorld (set_e_noise (VInt 5)
                  (fresh (to_frame two_samples) two_samples
                     (PFrame empty_frame) (to_frame two_samples))) 3).
Proof.
  apply (truthy_cache_served P_e_noise _ 5); [reflexivity | discriminate].
Defined.

(** X3: a property whose cache holds a series raises [ValueError] when it is
    read, before anything is computed or stored: the guard asks the series
    for a truth value.  This holds for each of the four properties. *)
Theorem series_cache_raises (p : property) (w : world) (s : Series)
    (Hcache : cache_of p (self w) = VSeries s) :
  access p w = Raise "ValueError" w.
Proof.
  destruct w as [[ca cn ci ct ml inp est itf noi] k].
  destruct p; cbn [cache_of self _s_target _e_interf _e_noise _e_artif] in Hcache;
    subst; reflexivity.
Qed.

Lemma series_cache_raises_witness :
  access P_s_target
    (mkWorld (set_s_target (VSeries one)
                (fresh (to_frame one) one (PFrame empty_frame) (to_frame one))) 0)
  = Raise "ValueError"
      (mkWorld (set_s_target (VSeries one)
                  (fresh (to_frame one) one (PFrame empty_frame) (to_frame one))) 0).
Proof.
  apply (series_cache_raises P_s_target _ one). reflexivity.
Defined.

(** ** Stages *)

Ltac falsy_side := cbn; first [left; reflexivity | right; reflexivity | reflexivity].

(** One access from a known stage: the stage it leads to and what it costs. *)
Lemma stage_step (p : property) (s : stage) (w : world) :
  at_stage s (self w) ->
  at_stage (later s (stage_of p)) (self (final (access p w))) /\
  projection_calls (final (access p w)) = (cost p s + projection_calls w)%nat.
Proof.
  destruct w as [[ca cn ci ct ml inp est itf noi] k].
  unfold at_stage, caches. cbn [self _s_target _e_interf _e_noise _e_artif estimated].
  intros H.
  destruct s; cbn [caches_at] in H; injection H as -> -> -> ->;
    destruct p; cbn [access];
    first [ rewrite s_target_runs by falsy_side
          | rewrite e_interf_runs by falsy_side
          | rewrite e_noise_runs by falsy_side
          | rewrite e_artif_runs by falsy_side
          | rewrite (e_artif_cached_raises _ est) by reflexivity ];
    split; reflexivity.
Qed.

Lemma at_stage_new (est : Series) (inp : DataFrame) (itf : pdobj)
    (noi : DataFrame) : at_stage Unused (self (new_instance est inp itf noi)).
Proof. reflexivity. Qed.

Lemma reachable_staged (w : world) :
  reachable w -> exists s, at_stage s (self w).
Proof.
  induction 1 as [est inp itf noi | w p _ [s Hs]].
  - exists Unused. apply at_stage_new.
  - exists (later s (stage_of p)). now apply stage_step.
Qed.

(** X4: on every instance in use the caches are filled in the order of their
    dependencies: nothing; [s_target]; also [e_interf]; also [e_noise]; all
    four.  The filled ones hold the integer 0, the artifact cache the
    estimated signal; and [max_len] is the length of the estimated signal. *)
Theorem reachable_caches_in_order (w : world) (Hw : reachable w) :
  (exists s, caches (self w) = caches_at s (estimated (self w))) /\
  max_len (self w) = len (estimated (self w)).
Proof.
  split; [exact (reachable_staged w Hw)|].
  induction Hw as [est inp itf noi | w p Hw IH]; [reflexivity|].
  destruct (keeps_inputs_access p w) as [Hin _]. unfold inputs in Hin.
  injection Hin as Hml _ Hest _ _. now rewrite Hml, Hest.
Qed.

Lemma reachable_caches_in_order_witness :
  reachable (final (access P_e_interf
                      (new_instance two_samples (to_frame two_samples)
                         (PFrame empty_frame) (to_frame two_samples)))) /\
  (exists s,
      caches (self (final (access P_e_interf
                             (new_instance two_samples (to_frame two_samples)
                                (PFrame empty_frame) (to_frame two_samples)))))
      = caches_at s two_samples) /\
  max_len (self (final (access P_e_interf
                          (new_instance two_samples (to_frame two_samples)
                             (PFrame empty_frame) (to_frame two_samples)))))
  = 2%nat.
Proof.
  split; [apply reach_access, reach_new|].
  exact (reachable_caches_in_order _
           (reach_access _ P_e_interf
              (reach_new two_samples (to_frame two_samples)
                 (PFrame empty_frame) (to_frame two_samples)))).
Defined.

(** ** What an access costs *)





(** X7: on an instance in use two accesses commute: read in either order,
    they leave the same caches and the same count of helper calls. *)
Theorem accesses_commute (p q : property) (w : world) (Hw : reachable w) :
  final (access p (final (access q w))) = final (access q (final (access p w))).
Proof.
  destruct (reachable_staged w Hw) as [s Hs].
  destruct w as [[ca cn ci ct ml inp est itf noi] k].
  unfold at_stage, caches in Hs.
  cbn [self _s_target _e_interf _e_noise _e_artif estimated] in Hs.
  destruct s; cbn [caches_at] in Hs; injection Hs as -> -> -> ->;
    destruct p, q; reflexivity.
Qed.

Lemma accesses_commute_witness :
  reachable (new_instance two_samples (to_frame two_samples)
               (PFrame empty_frame) (to_frame two_samples)) /\
  final (access P_e_artif
           (final (access P_s_target
                     (new_instance two_samples (to_frame two_samples)
                        (PFrame empty_frame) (to_frame two_samples)))))
  = final (access P_s_target
             (final (access P_e_artif
                       (new_instance two_samples (to_frame two_samples)
                          (PFrame empty_frame) (to_frame two_samples))))).
Proof.
  split; [apply reach_new|].
  exact (accesses_commute P_e_artif P_s_target _
           (reach_new two_samples (to_frame two_samples)
              (PFrame empty_frame) (to_frame two_samples))).
Defined.

Lemma frozen_step (p : property) (w : world) :
  at_stage HasArtif (self w) ->
  self (final (access p w)) = self w.
Proof.
  destruct w as [[ca cn ci ct ml inp est itf noi] k].
  unfold at_stage, caches.
  cbn [self _s_target _e_interf _e_noise _e_artif estimated caches_at].
  intros H. injection H as -> -> -> ->. destruct p; reflexivity.
Qed.

Lemma frozen_accesses (ps : list property) (w : world) :
  at_stage HasArtif (self w) -> self (accesses ps w) = self w.
Proof.
  revert w. induction ps as [|p ps IH]; intros w Hs; cbn; [reflexivity|].
  pose proof (frozen_step p w Hs) as E.
  rewrite IH; [exact E|]. now rewrite E.
Qed.

(** X8: [e_artif] can be read once.  When it has returned on an instance in
    use, then after any further accesses the instance is the same as right
    after that return, and every later access of [e_artif] raises
    [ValueError]. *)
Theorem e_artif_read_once (w w1 : world) (v : pyval) (ps : list property)
    (Hw : reachable w) (Hrun : e_artif w = Ret v w1) :
  self (accesses ps w1) = self w1 /\
  e_artif (accesses ps w1) = Raise "ValueError" (accesses ps w1).
Proof.
  assert (Hs : at_stage HasArtif (self w1)).
  { destruct (reachable_staged w Hw) as [s Hs].
    destruct (stage_step P_e_artif s w Hs) as [Hs' _].
    cbn [access] in Hs'. rewrite Hrun in Hs'. cbn [final] in Hs'.
    destruct s; exact Hs'. }
  pose proof (frozen_accesses ps w1 Hs) as E.
  split; [exact E|].
  apply (e_artif_cached_raises _ (estimated (self w1))).
  rewrite E. unfold at_stage, caches in Hs. cbn [caches_at] in Hs.
  now injection Hs.
Qed.

Lemma e_artif_read_once_witness :
  reachable (new_instance two_samples (to_frame two_samples)
               (PFrame empty_frame) (to_frame two_samples)) /\
  e_artif (accesses [P_s_target; P_e_noise]
             (final (e_artif (new_instance two_samples (to_frame two_samples)
                                (PFrame empty_frame) (to_frame two_samples)))))
  = Raise "ValueError"
      (accesses [P_s_target; P_e_noise]
         (final (e_artif (new_instance two_samples (to_frame two_samples)
                            (PFrame empty_frame) (to_frame two_samples))))).
Proof.
  split; [apply reach_new|].
  refine (proj2 (e_artif_read_once
                   (new_instance two_samples (to_frame two_samples)
                      (PFrame empty_frame) (to_frame two_samples))
                   _ (VSeries two_samples) [P_s_target; P_e_noise]
                   (reach_new two_samples (to_frame two_samples)
                      (PFrame empty_frame) (to_frame two_samples)) _)).
  vm_compute. reflexivity.
Defined.

(** ** Attributes *)

Lemma lookup_properties_none (name : string) :
  ~ In name property_names -> lookup name properties = None.
Proof.
  intros H. unfold properties. cbn [lookup].
  repeat match goal with
         | |- context [String.eqb ?k name] =>
             destruct (String.eqb_spec k name) as [E|_];
             [exfalso; apply H; rewrite <- E; cbn; tauto|]
         end.
  reflexivity.
Qed.

(** X9: only the four properties have side effects.  Looking up any other
    name, found or not, leaves the caches, the inputs and the count of helper
    calls exactly as they were. *)
Theorem getattr_plain_is_pure (name : string) (w : world)
    (Hname : ~ In name property_names) :
  final (getattr name w) = w.
Proof.
  unfold getattr. rewrite (lookup_properties_none name Hname).
  unfold bind, read, ret, lift.
  destruct (lookup name (instance_dict (self w))); [reflexivity|].
  destruct (existsb (String.eqb name) (class_members ++ object_members));
    reflexivity.
Qed.

Lemma getattr_plain_is_pure_witness :
  final (getattr "max_len"
           (new_instance two_samples (to_frame two_samples)
              (PFrame empty_frame) (to_frame two_samples)))
  = new_instance two_samples (to_frame two_samples)
      (PFrame empty_frame) (to_frame two_samples).
Proof.
  apply (getattr_plain_is_pure "max_len").
  cbn. intros [H|[H|[H|[H|[]]]]]; discriminate H.
Defined.

Lemma returns_last_read {A B : Type} (m : M A) (k : A -> M B)
    (f : instance -> pyval) (w w' : world) (v : pyval) :
  bind m (fun a => bind (k a) (fun _ => read f)) w = Ret v w' ->
  f (self w') = v.
Proof.
  unfold bind, read. destruct (m w) as [a w1|e w1]; [|discriminate].
  destruct (k a w1) as [b w2|e w2]; [|discriminate].
  intros H. now inversion H.
Qed.

(** X10: whatever the caches hold, when a property returns a value, that
    value is what its cache attribute holds afterwards: reading [_s_target],
    [_e_interf], [_e_noise] or [_e_artif] right after gives the value the
    property returned, without changing anything. *)
Theorem returned_value_is_cached (p : property) (w w' : world) (v : pyval)
    (Hrun : access p w = Ret v w') :
  cache_of p (self w') = v /\
  getattr (cache_name p) w' = Ret (AValue v) w'.
Proof.
  assert (E : cache_of p (self w') = v).
  { destruct p; cbn [access cache_of] in *.
    - exact (returns_last_read _ _ _ _ _ _ Hrun).
    - exact (returns_last_read _ _ _ _ _ _ Hrun).
    - exact (returns_last_read _ _ _ _ _ _ Hrun).
    - exact (returns_last_read _ _ _ _ _ _ Hrun). }
  split; [exact E|].
  rewrite <- E. destruct p; reflexivity.
Qed.

Lemma returned_value_is_cached_witness :
  getattr "_e_artif"
    (final (e_artif (new_instance two_samples (to_frame two_samples)
                       (PFrame empty_frame) (to_frame two_samples))))
  = Ret (AValue (VSeries two_samples))
      (final (e_artif (new_instance two_samples (to_frame two_samples)
                         (PFrame empty_frame) (to_frame two_samples)))).
Proof.
  refine (proj2 (returned_value_is_cached P_e_artif
                   (new_instance two_samples (to_frame two_samples)
                      (PFrame empty_frame) (to_frame two_samples))
                   _ (VSeries two_samples) _)).
  vm_compute. reflexivity.
Defined.

(** ** Instances the initializer builds *)

(** The two embeddings of the class agree wherever the interference is a
    pandas object: an access in the dynamic embedding is the access in the
    typed one. *)
Lemma dynamic_access_agrees (p : property) (w : world) :
  Dynamic.access p (Dynamic.of_world w) = Dynamic.of_outcome (access p w).
Proof.
  destruct w as [[ca cn ci ct ml inp est itf noi] k].
  destruct p.
  - destruct ct as [|[|?|?]|?]; reflexivity.
  - destruct ci as [|[|?|?]|?]; destruct ct as [|[|?|?]|?]; reflexivity.
  - destruct cn as [|[|?|?]|?]; destruct ci as [|[|?|?]|?];
      destruct ct as [|[|?|?]|?]; reflexivity.
  - destruct ca as [|[|?|?]|?]; destruct cn as [|[|?|?]|?];
      destruct ci as [|[|?|?]|?]; destruct ct as [|[|?|?]|?]; reflexivity.
Qed.

Lemma array_object_access (p : property) (w : Dynamic.state) :
  Dynamic.array_object (Dynamic.self w) ->
  Dynamic.array_object (Dynamic.self (Dynamic.final (Dynamic.access p w))).
Proof.
  destruct w as [[ca cn ci ct ml inp est itf noi] k].
  unfold Dynamic.array_object. cbn [Dynamic.self Dynamic.interference
    Dynamic._s_target Dynamic._e_interf Dynamic._e_noise Dynamic._e_artif].
  intros ([a ->] & Ht & -> & -> & ->).
  destruct Ht as [-> | ->]; destruct p; cbn;
    (split; [now exists a|]); auto.
Qed.

Lemma array_object_accesses (ps : list property) (w : Dynamic.state) :
  Dynamic.array_object (Dynamic.self w) ->
  Dynamic.array_object (Dynamic.self (Dynamic.accesses ps w)).
Proof.
  revert w. induction ps as [|p ps IH]; intros w H; cbn; [assumption|].
  apply IH. now apply array_object_access.
Qed.

Lemma array_object_outcomes (w : Dynamic.state) :
  Dynamic.array_object (Dynamic.self w) ->
  (exists w', Dynamic.s_target w = Dynamic.Ret (VInt 0) w') /\
  Dynamic.e_interf w = Dynamic.Raise "TypeError" w /\
  Dynamic.e_noise w = Dynamic.Raise "TypeError" w /\
  Dynamic.e_artif w = Dynamic.Raise "TypeError" w.
Proof.
  destruct w as [[ca cn ci ct ml inp est itf noi] k].
  unfold Dynamic.array_object. cbn [Dynamic.self Dynamic.interference
    Dynamic._s_target Dynamic._e_interf Dynamic._e_noise Dynamic._e_artif].
  intros ([a ->] & Ht & -> & -> & ->).
  destruct Ht as [-> | ->]; (split; [eexists; reflexivity|]);
    repeat split; reflexivity.
Qed.

(** X11: on every instance the initializer builds from a two-axis array as
    interference and a series as noise, and after any accesses of its
    properties, [s_target] returns the integer 0 while [e_interf], [e_noise]
    and [e_artif] raise [TypeError] and leave the instance as it is:
    [pd.concat] does not take the array. *)
Theorem array_instance_properties_raise (estimated_source real_source noise : Series)
    (n : nat) (rows : list (list cell)) (ps : list property) :
  exists o,
    Dynamic.init estimated_source real_source
      (Dynamic.OfArray (Numpy.Array2 n rows)) (NoiseSeries noise) = inr o /\
    (exists w',
        Dynamic.s_target (Dynamic.accesses ps (Dynamic.start o))
        = Dynamic.Ret (VInt 0) w') /\
    Dynamic.e_interf (Dynamic.accesses ps (Dynamic.start o))
    = Dynamic.Raise "TypeError" (Dynamic.accesses ps (Dynamic.start o)) /\
    Dynamic.e_noise (Dynamic.accesses ps (Dynamic.start o))
    = Dynamic.Raise "TypeError" (Dynamic.accesses ps (Dynamic.start o)) /\
    Dynamic.e_artif (Dynamic.accesses ps (Dynamic.start o))
    = Dynamic.Raise "TypeError" (Dynamic.accesses ps (Dynamic.start o)).
Proof.
  eexists. split.
  - unfold Dynamic.init, Dynamic.getitem, Numpy.ndarray_getitem, try, noise_getitem.
    reflexivity.
  - apply array_object_outcomes, array_object_accesses.
    unfold Dynamic.array_object. cbn. repeat split; auto. eexists; reflexivity.
Qed.

End Behaviour.
